(** * docs/config.js of trame: the documentation-site configuration module

    The module has two top-level statements:

      const path = require('path');
      module.exports = { baseUrl: '/trame', ..., copy: [] };

    It is embedded as the state-passing execution of these two statements
    over the module record Node hands to every CommonJS file.  JavaScript
    values are a first-order data type; an object is the association list of
    its own properties in insertion order. *)

From Stdlib Require Import String Ascii List Bool Arith Lia.
Import ListNotations.
Open Scope string_scope.
Open Scope list_scope.
Local Set Warnings "-register-all".

(** ** JavaScript values *)

Module Js.

(** The values that can occur here: strings, arrays, plain objects,
    [undefined], and functions supplied by the host (such as the members of
    Node's [path] module), which are opaque and known by name only. *)
Inductive value : Type :=
| VUndefined
| VStr (s : string)
| VArr (elems : list value)
| VObj (props : list (string * value))
| VNative (name : string).

(** One [key: value] entry of an object literal.  A key already present
    keeps its position and takes the new value; a new key goes last. *)
Fixpoint define_prop (k : string) (v : value) (ps : list (string * value))
  : list (string * value) :=
  match ps with
  | [] => [(k, v)]
  | (k', v') :: rest =>
      if String.eqb k k' then (k, v) :: rest
      else (k', v') :: define_prop k v rest
  end.

(** Evaluation of [{ k1: v1, ..., kn: vn }], entries taken left to right. *)
Definition object_literal (entries : list (string * value)) : value :=
  VObj (fold_left (fun acc kv => define_prop (fst kv) (snd kv) acc) entries []).

(** Evaluation of [[v1, ..., vn]]. *)
Definition array_literal (elems : list value) : value := VArr elems.

Fixpoint lookup (k : string) (ps : list (string * value)) : option value :=
  match ps with
  | [] => None
  | (k', v) :: rest => if String.eqb k k' then Some v else lookup k rest
  end.

(** Observation of an own property: [None] when the value is not an object
    or has no such property. *)
Definition field (k : string) (v : value) : option value :=
  match v with
  | VObj ps => lookup k ps
  | _ => None
  end.

(** Observation along a path of property names, as in [cfg.config.author]. *)
Fixpoint field_path (ks : list string) (v : value) : option value :=
  match ks with
  | [] => Some v
  | k :: rest =>
      match field k v with
      | Some w => field_path rest w
      | None => None
      end
  end.

(** [Object.keys]: the own property names, in insertion order. *)
Definition keys (v : value) : list string :=
  match v with
  | VObj ps => map fst ps
  | _ => []
  end.

(** [typeof v === 'string'] *)
Definition is_string (v : value) : bool :=
  match v with
  | VStr _ => true
  | _ => false
  end.

(** [Array.isArray(v) && v.every(x => typeof x === 'string')] *)
Definition is_string_array (v : value) : bool :=
  match v with
  | VArr xs => forallb is_string xs
  | _ => false
  end.

(** [v.length] for an array. *)
Definition array_length (v : value) : option nat :=
  match v with
  | VArr xs => Some (List.length xs)
  | _ => None
  end.

End Js.

Import Js.

(** ** Characters and strings *)

(** The double-quote character, code 34. *)
Definition dquote : ascii := "034"%char.

Definition first_char (s : string) : option ascii :=
  match s with
  | EmptyString => None
  | String c _ => Some c
  end.

Fixpoint last_char (s : string) : option ascii :=
  match s with
  | EmptyString => None
  | String c EmptyString => Some c
  | String _ rest => last_char rest
  end.

(** ** The host and the module record *)

(** What the Node process offers a module: [require] and the process
    environment.  [require] of a core module such as ['path'] cannot fail. *)
Record host : Type := {
  require : string -> value;
  environ : list (string * string)
}.

(** The state of the module while its body runs: the [const] bindings made
    so far and the current value of [module.exports]. *)
Record module_state : Type := {
  bindings : list (string * value);
  exports : value
}.

(** Node starts every module with [module.exports = {}]. *)
Definition fresh_module : module_state :=
  {| bindings := []; exports := object_literal [] |}.

Definition declare_const (x : string) (v : value) (st : module_state)
  : module_state :=
  {| bindings := (x, v) :: bindings st; exports := exports st |}.

Definition assign_exports (v : value) (st : module_state) : module_state :=
  {| bindings := bindings st; exports := v |}.

(** ** The module body *)

(** Line 1: [const path = require('path');] *)
Definition stmt_require_path (h : host) (st : module_state) : module_state :=
  declare_const "path" (require h "path") st.

(** Lines 11-21: the object literal under [config:]. *)
Definition config_literal : value :=
  object_literal
    [ ("title", VStr "Trame");
      ("subtitle",
       VStr (String dquote
               ("Trame the core of your next Web Application"
                ++ String dquote EmptyString)));
      ("description",
       VStr (String dquote
               ("Trame a solution for building interactive applications using a Web front-end"
                ++ String dquote EmptyString)));
      ("author", VStr "Kitware Inc.");
      ("timezone", VStr "UTC");
      ("url", VStr "https://kitware.github.io/trame");
      ("root", VStr "/trame/");
      ("github", VStr "kitware/trame");
      ("google_analytics_4", VStr "G-H4W9XHTJ7X") ].

(** Lines 6-23: the object literal on the right of [module.exports =]. *)
Definition exports_literal : value :=
  object_literal
    [ ("baseUrl", VStr "/trame");
      ("work", VStr "./build-tmp");
      ("api", array_literal [VStr "../trame"]);
      ("examples", array_literal []);
      ("config", config_literal);
      ("copy", array_literal []) ].

(** Lines 6-23: [module.exports = { ... };] *)
Definition stmt_assign_exports (h : host) (st : module_state) : module_state :=
  assign_exports exports_literal st.

(** The statements of the file, in order. *)
Definition module_body : list (host -> module_state -> module_state) :=
  [ stmt_require_path; stmt_assign_exports ].

(** A point of the execution: the index of the next statement and the
    module state. *)
Definition point : Type := (nat * module_state)%type.

(** One tick: the next statement runs if there is one; past the end of the
    body nothing is left to run. *)
Definition tick (h : host) (p : point) : point :=
  match nth_error module_body (fst p) with
  | Some stmt => (S (fst p), stmt h (snd p))
  | None => p
  end.

(** The point reached [n] ticks after the module starts in state [st]. *)
Definition point_at (h : host) (st : module_state) (n : nat) : point :=
  Nat.iter n (tick h) (0, st).

(** The number of ticks after which the record has been constructed. *)
Definition constructed : nat := List.length module_body.

(** Running the whole body. *)
Definition run_module (h : host) (st : module_state) : module_state :=
  fold_left (fun s stmt => stmt h s) module_body st.

(** A host for concrete runs: [require] answers with a cut-down [path]
    module. *)
Definition sample_host : host :=
  {| require := fun _ => VObj [("sep", VStr "/"); ("join", VNative "join")];
     environ := [("HOME", "/root")] |}.

(** A second host: the same answer for ['path'], [undefined] for any other
    module name, and an empty environment. *)
Definition bare_host : host :=
  {| require := fun m =>
       if String.eqb m "path"
       then VObj [("sep", VStr "/"); ("join", VNative "join")]
       else VUndefined;
     environ := [] |}.

(** What [require('./config.js')] gives the generator. *)
Definition load (h : host) : value := exports (run_module h fresh_module).

(** ** The module cache and the holders of the record

    Node runs the body on the first [require('./config.js')] only and keeps
    the exported object in its module cache: every later [require] hands out
    that same object.  The body calls neither [Object.freeze] nor
    [Object.defineProperty], so the record and its nested [config] record
    are ordinary objects: extensible, every property writable.  Since all
    holders share the one object, the cache entry is the single store. *)















(** * Properties *)

(** ** Association lists *)

Section Props.

Lemma lookup_none_iff (k : string) (ps : list (string * value)) :
  lookup k ps = None <-> ~ In k (map fst ps).
Proof.
  induction ps as [|[k' v] rest IH]; simpl.
  - split; [intros _ [] | reflexivity].
  - destruct (String.eqb_spec k k') as [-> | Hne].
    + split; [discriminate | intros H; exfalso; apply H; now left].
    + rewrite IH. split.
      * intros H [E | HIn]; [now apply Hne | now apply H].
      * intros H HIn. apply H. now right.
Qed.

Lemma lookup_some_in (k : string) (v : value) (ps : list (string * value)) :
  lookup k ps = Some v -> In (k, v) ps.
Proof.
  induction ps as [|[k' v'] rest IH]; simpl; [discriminate|].
  destruct (String.eqb_spec k k') as [-> | _].
  - intros [= ->]. now left.
  - intros H. right. now apply IH.
Qed.

(** A property that is not among the keys cannot be observed. *)
Lemma field_absent (k : string) (v : value) :
  ~ In k (keys v) -> field k v = None.
Proof.
  destruct v as [ | s | xs | ps | f]; simpl; try reflexivity.
  intros H. now apply lookup_none_iff.
Qed.

Lemma define_prop_fresh (k : string) (v : value) (ps : list (string * value)) :
  ~ In k (map fst ps) -> define_prop k v ps = ps ++ [(k, v)].
Proof.
  induction ps as [|[k' v'] rest IH]; simpl; [reflexivity|].
  intros H. destruct (String.eqb_spec k k') as [-> | _].
  - exfalso. apply H. now left.
  - f_equal. apply IH. intros HIn. apply H. now right.
Qed.

(** A literal whose keys are pairwise distinct evaluates to the object
    holding its entries as written. *)
Lemma object_literal_distinct (entries : list (string * value)) :
  NoDup (map fst entries) -> object_literal entries = VObj entries.
Proof.
  unfold object_literal. intros Hnd. f_equal.
  change entries with ([] ++ entries) at 2.
  revert Hnd. change entries with ([] ++ entries) at 1.
  generalize (@nil (string * value)) as acc.
  induction entries as [|[k v] rest IH]; intros acc Hnd; simpl.
  - now rewrite app_nil_r.
  - rewrite define_prop_fresh.
    + rewrite IH; rewrite <- app_assoc; [reflexivity | exact Hnd].
    + rewrite map_app in Hnd. simpl in Hnd.
      apply NoDup_remove_2 in Hnd.
      intros HIn. apply Hnd. apply in_or_app. now left.
Qed.



End Props.

(** ** Running the module *)

Section Run.

Variable h : host.

Lemma run_module_exports (st : module_state) :
  exports (run_module h st) = exports_literal.
Proof. reflexivity. Qed.

Lemma load_literal : load h = exports_literal.
Proof. apply run_module_exports. Qed.

Lemma tick_past_end (p : point) :
  constructed <= fst p -> tick h p = p.
Proof.
  intros Hle. unfold tick.
  destruct (nth_error module_body (fst p)) eqn:E; [|reflexivity].
  exfalso. apply nth_error_None in Hle. congruence.
Qed.

Lemma point_at_succ (st : module_state) (n : nat) :
  point_at h st (S n) = tick h (point_at h st n).
Proof. reflexivity. Qed.

Lemma point_at_constructed (st : module_state) :
  point_at h st constructed = (constructed, run_module h st).
Proof. reflexivity. Qed.

Lemma point_at_stationary (st : module_state) (m : nat) :
  point_at h st (constructed + m) = point_at h st constructed.
Proof.
  induction m as [|m IH].
  - now rewrite Nat.add_0_r.
  - rewrite Nat.add_succ_r, point_at_succ, IH, point_at_constructed.
    apply tick_past_end. simpl. apply le_n.
Qed.

End Run.

(** ** The exported record *)

Section Exported.

Variable h : host.

(** C1. Whatever the host, loading the configuration gives a record with
    exactly the six fields of the source, each holding its literal value:
    baseUrl '/trame', work './build-tmp', api ['../trame'], examples [],
    copy [], and under config the nine literal metadata values, among them
    author 'Kitware Inc.'. *)
Theorem load_is_literal_record :
  keys (load h) = ["baseUrl"; "work"; "api"; "examples"; "config"; "copy"]
  /\ field "baseUrl" (load h) = Some (VStr "/trame")
  /\ field "work" (load h) = Some (VStr "./build-tmp")
  /\ field "api" (load h) = Some (VArr [VStr "../trame"])
  /\ field "examples" (load h) = Some (VArr [])
  /\ field "copy" (load h) = Some (VArr [])
  /\ field "config" (load h) =
       Some (VObj
         [ ("title", VStr "Trame");
           ("subtitle",
            VStr (String dquote
                    ("Trame the core of your next Web Application"
                     ++ String dquote EmptyString)));
           ("description",
            VStr (String dquote
                    ("Trame a solution for building interactive applications using a Web front-end"
                     ++ String dquote EmptyString)));
           ("author", VStr "Kitware Inc.");
           ("timezone", VStr "UTC");
           ("url", VStr "https://kitware.github.io/trame");
           ("root", VStr "/trame/");
           ("github", VStr "kitware/trame");
           ("google_analytics_4", VStr "G-H4W9XHTJ7X") ])
  /\ field_path ["config"; "author"] (load h) = Some (VStr "Kitware Inc.").
Proof.
  rewrite load_literal.
  repeat split; vm_compute; reflexivity.
Qed.

(** C2. The examples field and the copy field are both arrays of strings of
    length zero. *)
Theorem examples_and_copy_empty :
  exists e c,
    field "examples" (load h) = Some e
    /\ field "copy" (load h) = Some c
    /\ is_string_array e = true /\ array_length e = Some 0
    /\ is_string_array c = true /\ array_length c = Some 0.
Proof.
  exists (VArr []), (VArr []).
  rewrite load_literal. cbn. tauto.
Qed.

(** C3. The nested config record has exactly nine fields, all holding
    strings: title, subtitle, description, author, timezone, url, root,
    github and google_analytics_4; no other property can be observed on
    it. *)
Theorem config_has_nine_string_fields :
  exists cfg,
    field "config" (load h) = Some cfg
    /\ keys cfg =
         ["title"; "subtitle"; "description"; "author"; "timezone";
          "url"; "root"; "github"; "google_analytics_4"]
    /\ List.length (keys cfg) = 9
    /\ NoDup (keys cfg)
    /\ (forall k, In k (keys cfg) ->
          exists s, field k cfg = Some (VStr s))
    /\ (forall k, ~ In k (keys cfg) -> field k cfg = None).
Proof.
  rewrite load_literal.
  eexists. split; [vm_compute; reflexivity|].
  split; [reflexivity|]. split; [reflexivity|].
  split; [|split].
  - cbn [keys map fst].
    repeat (constructor; [cbn; intuition discriminate|]). constructor.
  - intros k HIn. cbn [keys map fst] in HIn.
    repeat (destruct HIn as [<- | HIn]; [eexists; vm_compute; reflexivity|]).
    destruct HIn.
  - intros k. apply field_absent.
Qed.

(** C4. The api field is an array whose every element is a string, equal to
    the one-element array ['../trame']; the work field is the single string
    './build-tmp'. *)
Theorem api_and_work_paths :
  exists a w,
    field "api" (load h) = Some a
    /\ is_string_array a = true
    /\ a = VArr [VStr "../trame"]
    /\ field "work" (load h) = Some (VStr w)
    /\ w = "./build-tmp".
Proof.
  rewrite load_literal.
  do 2 eexists. split; [vm_compute; reflexivity|].
  repeat split.
Qed.

End Exported.

(** ** Independence of the inputs *)

(** C6. Loading is deterministic and independent of every input: for any
    two hosts (whatever [require('path')] returns and whatever the process
    environment holds) and any two starting module states, the exported
    records coincide; in particular any two loads give the same record. *)
Theorem load_input_independent
  (h1 h2 : host) (st1 st2 : module_state) :
  exports (run_module h1 st1) = exports (run_module h2 st2)
  /\ load h1 = load h2.
Proof.
  split.
  - now rewrite !run_module_exports.
  - unfold load. now rewrite !run_module_exports.
Qed.

(** ** Relations between the literal values *)

Section Relations.

Variable h : host.

(** C7. The root path of the nested config is the top-level baseUrl followed
    by a slash. *)
Theorem root_is_baseUrl_slash :
  exists b r,
    field "baseUrl" (load h) = Some (VStr b)
    /\ field_path ["config"; "root"] (load h) = Some (VStr r)
    /\ r = (b ++ "/")%string.
Proof.
  rewrite load_literal.
  exists "/trame", "/trame/". now vm_compute.
Qed.

(** C8. The canonical URL of the nested config ends with the top-level
    baseUrl: it is 'https://kitware.github.io' followed by baseUrl. *)
Theorem url_ends_with_baseUrl :
  exists b u p,
    field "baseUrl" (load h) = Some (VStr b)
    /\ field_path ["config"; "url"] (load h) = Some (VStr u)
    /\ p = "https://kitware.github.io"
    /\ u = (p ++ b)%string.
Proof.
  rewrite load_literal.
  do 3 eexists.
  split; [vm_compute; reflexivity|].
  split; [vm_compute; reflexivity|].
  split; reflexivity.
Qed.

(** C9. The subtitle and the description each have a double-quote character
    as their first and as their last character, inside the value. *)
Theorem subtitle_description_quoted :
  exists s d,
    field_path ["config"; "subtitle"] (load h) = Some (VStr s)
    /\ field_path ["config"; "description"] (load h) = Some (VStr d)
    /\ first_char s = Some dquote /\ last_char s = Some dquote
    /\ first_char d = Some dquote /\ last_char d = Some dquote
    /\ 2 <= String.length s /\ 2 <= String.length d.
Proof.
  rewrite load_literal.
  do 2 eexists.
  split; [vm_compute; reflexivity|].
  split; [vm_compute; reflexivity|].
  repeat split; vm_compute; try reflexivity; repeat constructor.
Qed.

End Relations.

(** ** Life of the record after construction *)

Section Holders.

Variable h : host.







End Holders.




(** * Further properties of the module body *)

(** ** What the body reads from the host *)

Lemma run_module_state (h : host) (st : module_state) :
  run_module h st =
  {| bindings := ("path", require h "path") :: bindings st;
     exports := exports_literal |}.
Proof. reflexivity. Qed.

(** X1. The only thing the body reads from the host is the answer of
    [require('path')]: two runs from the same state end in the same module
    state exactly when the two hosts give the same answer for ['path'];
    the environment and the answers for other names play no part. *)
Theorem host_read_only_through_require_path
  (h1 h2 : host) (st : module_state) :
  run_module h1 st = run_module h2 st
  <-> require h1 "path" = require h2 "path".
Proof.
  rewrite !run_module_state. split.
  - intros E. injection E as E. exact E.
  - intros E. now rewrite E.
Qed.

Lemma host_read_only_through_require_path_witness :
  require sample_host "path" = require bare_host "path"
  /\ environ sample_host <> environ bare_host
  /\ require sample_host "fs" <> require bare_host "fs"
  /\ run_module sample_host fresh_module = run_module bare_host fresh_module.
Proof.
  assert (E : require sample_host "path" = require bare_host "path")
    by reflexivity.
  split; [exact E|].
  split; [discriminate|].
  split; [discriminate|].
  exact (proj2 (host_read_only_through_require_path
                  sample_host bare_host fresh_module) E).
Defined.

(** ** Before the assignment *)

(** X2. Until the assignment of line 6 has run, [module.exports] is still
    the value the module started with; in a fresh module that is the empty
    object, on which no configuration field can be observed. *)
Theorem exports_untouched_before_assignment
  (h : host) (st : module_state) (n : nat) :
  n < constructed ->
  exports (snd (point_at h st n)) = exports st
  /\ (forall k, field k (exports (snd (point_at h fresh_module n))) = None).
Proof.
  unfold constructed. simpl List.length. intros Hlt.
  destruct n as [|[|n]]; [split; reflexivity | split; reflexivity | lia].
Qed.

Lemma exports_untouched_before_assignment_witness :
  1 < constructed
  /\ (exports (snd (point_at sample_host fresh_module 1)) = exports fresh_module
      /\ (forall k,
            field k (exports (snd (point_at sample_host fresh_module 1)))
            = None)).
Proof.
  assert (Hlt : 1 < constructed) by (vm_compute; lia).
  split; [exact Hlt|].
  exact (exports_untouched_before_assignment sample_host fresh_module 1 Hlt).
Defined.
